(** * jobsearch: the Adzuna search tool, the completion hook and the task graph

    A shallow embedding of [app.py].  Python values that travel through the
    search tool are JSON values; a Python call either returns or raises, which
    is the [outcome] type; the completion hook runs in a small state-and-error
    monad over the file system and the standard output. *)

From Stdlib Require Import ZArith String Ascii List Bool Lia Permutation.
From stdpp Require Import base option list gmap strings pretty.

Set Warnings "-register-all".
Local Open Scope Z_scope.

(** ** Python values, exceptions and outcomes *)

Module Py.

(** What [response.json()] can produce.  A JSON number is kept as its literal:
    the program never computes with one, it can only print it. *)
Inductive value : Type :=
| VNone
| VBool (b : bool)
| VNum (literal : string)
| VStr (s : string)
| VList (l : list value)
| VDict (d : gmap string value).

(** The exceptions the program can meet.  [RequestException] stands for
    [requests.exceptions.RequestException] and its subclasses (ConnectionError,
    Timeout, HTTPError, ...); it carries [str(e)]. *)
Inductive exn : Type :=
| RequestException (msg : string)
| KeyError (key : string)
| TypeError
| AttributeError
| OSError (msg : string)
| OtherError (name : string).

Inductive outcome (A : Type) : Type :=
| Ret (a : A)
| Raise (e : exn).
Arguments Ret {A} a.
Arguments Raise {A} e.

Definition bind {A B : Type} (m : outcome A) (k : A -> outcome B) : outcome B :=
  match m with
  | Ret a => k a
  | Raise e => Raise e
  end.

Definition returns {A : Type} (m : outcome A) : Prop := exists a, m = Ret a.

(** The newline character and the line feed string. *)
Definition LF : string := String (ascii_of_nat 10) EmptyString.

(** [s[:n]] on a str. *)
Fixpoint str_take (n : nat) (s : string) : string :=
  match n, s with
  | S n', String c s' => String c (str_take n' s')
  | _, _ => EmptyString
  end.

(** [sep.join(ls)]. *)
Fixpoint join (sep : string) (ls : list string) : string :=
  match ls with
  | [] => EmptyString
  | [x] => x
  | x :: xs => x +:+ sep +:+ join sep xs
  end.

(** How many line feeds a text holds: one less than its number of lines. *)
Fixpoint line_feeds (s : string) : nat :=
  match s with
  | EmptyString => 0
  | String c s' => (if Ascii.eqb c (ascii_of_nat 10) then 1 else 0) + line_feeds s'
  end.

(** [a or b] on strings: the empty string is falsy. *)
Definition str_or (a b : string) : string :=
  match a with
  | EmptyString => b
  | _ => a
  end.

(** [not o] where [o] is the result of [os.getenv]: [None] and the empty
    string are falsy. *)
Definition py_not (o : option string) : bool :=
  match o with
  | None => true
  | Some EmptyString => true
  | Some _ => false
  end.

(** [f"{o}"] for the result of [os.getenv]. *)
Definition format_getenv (o : option string) : string :=
  match o with
  | None => "None"
  | Some s => s
  end.

(** [v[k]] with a str key. *)
Definition getitem (v : value) (k : string) : outcome value :=
  match v with
  | VDict d =>
      match d !! k with
      | Some x => Ret x
      | None => Raise (KeyError k)
      end
  | _ => Raise TypeError
  end.

(** [v[:n]].  A dict refuses a slice key (TypeError up to Python 3.11,
    KeyError from 3.12 on; kept as [TypeError]). *)
Definition slice_to (v : value) (n : nat) : outcome value :=
  match v with
  | VStr s => Ret (VStr (str_take n s))
  | VList l => Ret (VList (take n l))
  | _ => Raise TypeError
  end.

(** [v.get(k, dflt)]: only a dict has the method. *)
Definition dict_get (v : value) (k : string) (dflt : value) : outcome value :=
  match v with
  | VDict d => Ret (default dflt (d !! k))
  | _ => Raise AttributeError
  end.

(** The items a [for] loop visits.  A str yields its characters, a dict its
    keys (in the order of [map_to_list]; the program fails on the first key
    whatever it is). *)
Definition iterate (v : value) : outcome (list value) :=
  match v with
  | VList l => Ret l
  | VStr s => Ret (map (fun c => VStr (String c EmptyString)) (list_ascii_of_string s))
  | VDict d => Ret (map (fun kv => VStr (fst kv)) (map_to_list d))
  | _ => Raise TypeError
  end.

(** [try: body except requests.exceptions.RequestException as e: handler]. *)
Definition try_except_RequestException {A : Type}
    (body : outcome A) (handler : string -> outcome A) : outcome A :=
  match body with
  | Raise (RequestException msg) => handler msg
  | other => other
  end.

End Py.

Import Py.

Notation "x <- m ;; k" := (Py.bind m (fun x => k))
  (at level 100, m at next level, right associativity, only parsing).

(** ** The [requests] interface *)

(** A response as the program sees it: its status line, and what
    [response.json()] does. *)
Record response : Type := Response {
  status_code : Z;
  reason : string;
  url : string;
  json : outcome value
}.

(** [requests.Response.raise_for_status]: an [HTTPError] (a
    [RequestException]) for a 4xx or 5xx status, nothing otherwise. *)
Definition is_error_status (r : response) : bool :=
  (400 <=? status_code r) && (status_code r <? 600).

Definition http_error_msg (r : response) : string :=
  pretty (status_code r) +:+
  (if status_code r <? 500 then " Client Error: " else " Server Error: ") +:+
  reason r +:+ " for url: " +:+ url r.

Definition raise_for_status (r : response) : outcome unit :=
  if is_error_status r then Raise (RequestException (http_error_msg r))
  else Ret tt.

(** ** The search tool *)

Section SearchJobs.

(** [str(v)] for a JSON value that is not a str ([None], [True], [12],
    [['a']], ...), as an f-string prints it. *)
Variable py_repr : value -> string.

(** [os.environ]. *)
Variable environ : gmap string string.

(** [requests.get]: what the network does for a URL. *)
Variable requests_get : string -> outcome response.

Definition os_getenv (name : string) : option string := environ !! name.

(** [f"{v}"]. *)
Definition format_value (v : value) : string :=
  match v with
  | VStr s => s
  | _ => py_repr v
  end.

(** The f-string of line 33, fields evaluated left to right. *)
Definition job_details (job : value) : outcome string :=
  title <- getitem job "title" ;;
  company <- getitem job "company" ;;
  company_name <- getitem company "display_name" ;;
  location <- getitem job "location" ;;
  location_name <- getitem location "display_name" ;;
  description <- getitem job "description" ;;
  description100 <- slice_to description 100 ;;
  Ret ("Title: " +:+ format_value title +:+
       ", Company: " +:+ format_value company_name +:+
       ", Location: " +:+ format_value location_name +:+
       ", Description: " +:+ format_value description100 +:+ "...").

(** The loop of lines 32-34: [job_listings] grows by one line per job. *)
Fixpoint for_jobs (jobs : list value) (job_listings : list string)
    : outcome (list string) :=
  match jobs with
  | [] => Ret job_listings
  | job :: rest =>
      line <- job_details job ;;
      for_jobs rest (job_listings ++ [line])
  end.

Definition MISSING_CREDENTIALS : string :=
  "Missing ADZUNA_APP_ID or ADZUNA_API_KEY environment variables.".

Definition NO_JOBS : string := "No jobs found.".

(** Lines 22-24: the URL, built in three pieces. *)
Definition search_url (app_id api_key : option string)
    (role location : string) (num_results : Z) : string :=
  let url := "http://api.adzuna.com/v1/api/jobs/us/search/1" in
  let url := url +:+ ("?app_id=" +:+ format_getenv app_id +:+
                      "&app_key=" +:+ format_getenv api_key) in
  let url := url +:+ ("&results_per_page=" +:+ pretty num_results +:+
                      "&what=" +:+ role +:+ "&where=" +:+ location +:+
                      "&content-type=application/json") in
  url.

Definition _search_jobs (role location : string) (num_results : Z)
    : outcome string :=
  let app_id := os_getenv "ADZUNA_APP_ID" in
  let api_key := os_getenv "ADZUNA_API_KEY" in
  if py_not app_id || py_not api_key then Ret MISSING_CREDENTIALS
  else
    let url := search_url app_id api_key role location num_results in
    try_except_RequestException
      (response <- requests_get url ;;
       _ <- raise_for_status response ;;
       jobs_data <- json response ;;
       results <- dict_get jobs_data "results" (VList []) ;;
       jobs <- iterate results ;;
       job_listings <- for_jobs jobs [] ;;
       Ret (str_or (join LF job_listings) NO_JOBS))
      (fun e => Ret ("Request error: " +:+ e)).

End SearchJobs.

(** ** The completion hook *)

(** The part of the machine the hook touches: the files, the handles that are
    open, what was printed, and whether the operating system currently refuses
    to open or to write (permissions, a full disk), with the error text. *)
Record world : Type := World {
  files : gmap string string;
  open_handles : list string;
  stdout : list string;
  open_error : option string;
  write_error : option string
}.

(** A Python statement: it changes the world and returns or raises. *)
Definition M (A : Type) : Type := world -> world * outcome A.

Definition retM {A : Type} (a : A) : M A := fun w => (w, Ret a).

Definition bindM {A B : Type} (m : M A) (k : A -> M B) : M B :=
  fun w =>
    match m w with
    | (w', Ret a) => k a w'
    | (w', Raise e) => (w', Raise e)
    end.

Notation "m ;> k" := (bindM m (fun _ => k))
  (at level 100, right associativity, only parsing).

(** [open(path, "a")]: the file is created when it does not exist and the
    handle writes at its end. *)
Definition open_append (path : string) : M string :=
  fun w =>
    match open_error w with
    | Some msg => (w, Raise (OSError msg))
    | None =>
        (World (<[path := default EmptyString (files w !! path)]> (files w))
               (path :: open_handles w) (stdout w) (open_error w) (write_error w),
         Ret path)
    end.

(** [file.write(data)] on a handle opened for appending.  (With Python's
    buffering a refused write may only surface when the handle is flushed on
    leaving the [with] block; it leaves the block as the same [OSError].) *)
Definition file_write (file : string) (data : string) : M unit :=
  fun w =>
    match write_error w with
    | Some msg => (w, Raise (OSError msg))
    | None =>
        (World (<[file := default EmptyString (files w !! file) +:+ data]> (files w))
               (open_handles w) (stdout w) (open_error w) (write_error w),
         Ret tt)
    end.

(** Drop one handle on [file] from the open ones. *)
Fixpoint remove_handle (file : string) (hs : list string) : list string :=
  match hs with
  | [] => []
  | h :: rest => if String.eqb h file then rest else h :: remove_handle file rest
  end.

Definition file_close (file : string) : M unit :=
  fun w =>
    (World (files w) (remove_handle file (open_handles w)) (stdout w)
           (open_error w) (write_error w),
     Ret tt).

(** [with open(path, "a") as file: body]: the handle is closed on every way
    out of the body, and what the body raised is raised again. *)
Definition with_open_append {A : Type} (path : string) (body : string -> M A) : M A :=
  fun w =>
    match open_append path w with
    | (w1, Raise e) => (w1, Raise e)
    | (w1, Ret file) =>
        let '(w2, r) := body file w1 in
        let '(w3, _) := file_close file w2 in
        (w3, r)
    end.

Definition print (line : string) : M unit :=
  fun w =>
    (World (files w) (open_handles w) (stdout w ++ [line])
           (open_error w) (write_error w),
     Ret tt).

(** [crewai.tasks.task_output.TaskOutput], as far as the hook reads it. *)
Record TaskOutput : Type := { result : string }.

Definition TASK_OUTPUT_FILE : string := "task_output.txt".

Definition callback_function (output : TaskOutput) : M unit :=
  with_open_append TASK_OUTPUT_FILE
    (fun file => file_write file (result output +:+ LF +:+ LF)) ;>
  print "Result saved to task_output.txt".

(** What the store holds: the contents of [task_output.txt]. *)
Definition store (w : world) : string :=
  default EmptyString (files w !! TASK_OUTPUT_FILE).

(** ** Agents, tasks and the crew *)

Inductive agent_name : Type :=
| job_searcher_agent
| skills_development_agent
| interview_preparation_coach
| career_advisor.

Inductive task_name : Type :=
| job_search_task
| skills_highlighting_task
| interview_preparation_task
| career_advisory_task.

#[global] Instance task_name_eq_dec : EqDecision task_name.
Proof. solve_decision. Defined.

Inductive Process : Type := sequential | hierarchical.

(** The keyword arguments of the four [Task(...)] calls that shape the run. *)
Definition agent (t : task_name) : agent_name :=
  match t with
  | job_search_task => job_searcher_agent
  | skills_highlighting_task => skills_development_agent
  | interview_preparation_task => interview_preparation_coach
  | career_advisory_task => career_advisor
  end.

Definition context (t : task_name) : list task_name :=
  match t with
  | job_search_task => []
  | skills_highlighting_task => [job_search_task]
  | interview_preparation_task => [job_search_task]
  | career_advisory_task => [job_search_task]
  end.

Definition has_callback (t : task_name) : bool := true.

Record Crew : Type := {
  agents : list agent_name;
  tasks : list task_name;
  process : Process
}.

Definition job_search_crew : Crew := {|
  agents := [job_searcher_agent; skills_development_agent;
             interview_preparation_coach; career_advisor];
  tasks := [job_search_task; skills_highlighting_task;
            interview_preparation_task; career_advisory_task];
  process := hierarchical
|}.

Definition downstream_tasks : list task_name :=
  [skills_highlighting_task; interview_preparation_task; career_advisory_task].

(** Modelled from the spec: the orchestrator ([Crew.kickoff], in the crewai
    package and not in this repository).  Section 4.3: a task is eligible when
    every entry of its [depends_on] has completed; executing it freezes its
    result, once.  The state is the list of tasks with a frozen result, in
    completion order. *)
Definition eligible (c : Crew) (frozen : list task_name) (t : task_name) : bool :=
  bool_decide (t ∈ tasks c) && negb (bool_decide (t ∈ frozen)) &&
  forallb (fun d => bool_decide (d ∈ frozen)) (context t).

(** Modelled from the spec: the executions of a crew, one eligible task at a
    time (section 5: tasks execute one at a time). *)
Inductive execution (c : Crew) : list task_name -> Prop :=
| exec_start : execution c []
| exec_step frozen t :
    execution c frozen -> eligible c frozen t = true -> execution c (frozen ++ [t]).

(** [a] has its result in [trace] strictly before [b] runs. *)
Definition frozen_before (a b : task_name) (trace : list task_name) : Prop :=
  exists before after, trace = before ++ b :: after /\ a ∈ before.

(** ** Records and bodies that the search tool formats *)

(** A result record as the search endpoint documents it: text fields, the
    company and the location nested under [display_name]. *)
Record job_record : Type := {
  rec_title : string;
  rec_company : string;
  rec_location : string;
  rec_description : string
}.

(** The JSON object [job] carries the record [r] (other fields are allowed). *)
Definition represents (job : value) (r : job_record) : Prop :=
  exists d c l,
    job = VDict d /\
    d !! "title" = Some (VStr (rec_title r)) /\
    d !! "company" = Some (VDict c) /\
    c !! "display_name" = Some (VStr (rec_company r)) /\
    d !! "location" = Some (VDict l) /\
    l !! "display_name" = Some (VStr (rec_location r)) /\
    d !! "description" = Some (VStr (rec_description r)).

(** The summary line as the specification words it. *)
Definition summary_line (r : job_record) : string :=
  "Title: " +:+ rec_title r +:+
  ", Company: " +:+ rec_company r +:+
  ", Location: " +:+ rec_location r +:+
  ", Description: " +:+ str_take 100 (rec_description r) +:+ "...".

(** No field of the record holds a line feed. *)
Definition one_line_record (r : job_record) : Prop :=
  line_feeds (rec_title r) = 0%nat /\ line_feeds (rec_company r) = 0%nat /\
  line_feeds (rec_location r) = 0%nat /\ line_feeds (rec_description r) = 0%nat.

(** The shape a record needs for line 33 to go through: the four keys are
    there, [company] and [location] are objects with a [display_name], and
    the description can be sliced. *)
Definition has_display_name (v : value) : bool :=
  match v with
  | VDict d => bool_decide (is_Some (d !! "display_name"))
  | _ => false
  end.

Definition sliceable (v : value) : bool :=
  match v with
  | VStr _ | VList _ => true
  | _ => false
  end.

Definition well_formed_record (job : value) : bool :=
  match job with
  | VDict d =>
      bool_decide (is_Some (d !! "title")) &&
      from_option has_display_name false (d !! "company") &&
      from_option has_display_name false (d !! "location") &&
      from_option sliceable false (d !! "description")
  | _ => false
  end.

(** A body the loop of lines 32-34 goes through: an object whose [results],
    when present, is a list of well-formed records. *)
Definition well_formed_body (body : value) : bool :=
  match body with
  | VDict d =>
      match d !! "results" with
      | None => true
      | Some (VList jobs) => forallb well_formed_record jobs
      | Some _ => false
      end
  | _ => false
  end.

(** What the network may do without an exception other than
    [RequestException] reaching the program, and with a well-formed body when
    the response is a success. *)
Definition upstream_benign (o : outcome response) : bool :=
  match o with
  | Raise (RequestException _) => true
  | Raise _ => false
  | Ret r =>
      is_error_status r ||
      match json r with
      | Ret body => well_formed_body body
      | Raise (RequestException _) => true
      | Raise _ => false
      end
  end.

(** How the GET fails, with the text of the exception: at the transport level
    ([requests.get] raises), or by a 4xx/5xx status ([raise_for_status]
    raises). *)
Definition request_failure (o : outcome response) : option string :=
  match o with
  | Raise (RequestException msg) => Some msg
  | Raise _ => None
  | Ret r => if is_error_status r then Some (http_error_msg r) else None
  end.

Section SearchJobsCalls.

Variable environ : gmap string string.
Variable requests_get : string -> outcome response.

Definition credentials_present : Prop :=
  py_not (os_getenv environ "ADZUNA_APP_ID") = false /\
  py_not (os_getenv environ "ADZUNA_API_KEY") = false.

(** The URL of the one GET that a call with these arguments sends. *)
Definition request_url (role location : string) (num_results : Z) : string :=
  search_url (os_getenv environ "ADZUNA_APP_ID") (os_getenv environ "ADZUNA_API_KEY")
             role location num_results.

(** The call is answered with a success status and the parsed body [body]. *)
Definition successful_response (role location : string) (num_results : Z)
    (body : value) : Prop :=
  credentials_present /\
  exists r,
    requests_get (request_url role location num_results) = Ret r /\
    is_error_status r = false /\
    json r = Ret body.

End SearchJobsCalls.

(** ** Scenarios

    The call of the job search task: role "Senior Business Analyst", location
    "New York", ten results; and the worlds it may run in. *)

Module Scenario.

(** A rendering of values that are not text, enough for the scenarios (the
    theorems hold for every rendering). *)
Definition repr (v : value) : string :=
  match v with
  | VNone => "None"
  | VBool true => "True"
  | VBool false => "False"
  | VNum literal => literal
  | _ => "<object>"
  end.

Definition no_credentials : gmap string string := ∅.

Definition credentials : gmap string string :=
  {[ "ADZUNA_APP_ID" := "a1b2c3"; "ADZUNA_API_KEY" := "0123456789abcdef" ]}.

Definition role : string := "Senior Business Analyst".
Definition location : string := "New York".
Definition num_results : Z := 10.

Definition ok (body : value) : response :=
  {| status_code := 200; reason := "OK";
     url := request_url credentials role location num_results;
     json := Ret body |}.

Definition job (title company place description : value) : value :=
  VDict {[ "title" := title;
           "company" := VDict {[ "display_name" := company ]};
           "location" := VDict {[ "display_name" := place ]};
           "description" := description ]}.

Definition analyst : job_record := {|
  rec_title := "Senior Business Analyst";
  rec_company := "Acme Corp";
  rec_location := "New York, NY";
  rec_description :=
    "We are looking for a Senior Business Analyst to join our New York team and lead requirements gathering across several product lines."
|}.

Definition consultant : job_record := {|
  rec_title := "Business Analyst Consultant";
  rec_company := "Initech";
  rec_location := "Brooklyn, New York";
  rec_description := "Short role summary."
|}.

Definition job_of (r : job_record) : value :=
  job (VStr (rec_title r)) (VStr (rec_company r)) (VStr (rec_location r))
      (VStr (rec_description r)).

Definition two_jobs : gmap string value :=
  {[ "count" := VNum "2";
     "results" := VList [job_of analyst; job_of consultant] ]}.

Definition no_jobs : gmap string value :=
  {[ "count" := VNum "0"; "results" := VList [] ]}.

Definition no_results_key : gmap string value :=
  {[ "count" := VNum "0" ]}.

(** A record whose company has no [display_name]. *)
Definition anonymous_job : value :=
  VDict {[ "title" := VStr "Business Analyst";
           "company" := VDict ∅;
           "location" := VDict {[ "display_name" := VStr "New York" ]};
           "description" := VStr "Confidential employer." ]}.

Definition anonymous_jobs : gmap string value :=
  {[ "count" := VNum "1"; "results" := VList [anonymous_job] ]}.

Definition answers (o : outcome response) : string -> outcome response :=
  fun _ => o.

Definition forbidden : response :=
  {| status_code := 403; reason := "Forbidden";
     url := request_url credentials role location num_results;
     json := Ret (VDict ∅) |}.

Definition search (get : string -> outcome response) : outcome string :=
  _search_jobs repr credentials get role location num_results.

(** A machine with an empty disk, and one whose disk is full. *)
Definition fresh : world :=
  {| files := ∅; open_handles := []; stdout := [];
     open_error := None; write_error := None |}.

Definition disk_full : world :=
  {| files := ∅; open_handles := []; stdout := [];
     open_error := None;
     write_error := Some "[Errno 28] No space left on device" |}.

Definition report : TaskOutput := {| result := "Ten openings found." |}.

End Scenario.

(** ** Edge cases of the search tool and of the hook *)

(** The values a [for] loop refuses: [None], a bool, a number. *)
Definition not_iterable (v : value) : bool :=
  match v with
  | VNone | VBool _ | VNum _ => true
  | _ => false
  end.

Definition is_dict (v : value) : bool :=
  match v with
  | VDict _ => true
  | _ => false
  end.

(** What an exception raised inside the [try] block of lines 26-37 becomes. *)
Definition handled (e : exn) : outcome string :=
  match e with
  | RequestException msg => Ret ("Request error: " +:+ msg)
  | _ => Raise e
  end.

(** The hook called for one result after the other, as statements in a row:
    the first exception ends the row. *)
Fixpoint callbacks (outputs : list TaskOutput) : M unit :=
  match outputs with
  | [] => retM tt
  | output :: rest => callback_function output ;> callbacks rest
  end.

(** The blocks that these results make in the store. *)
Fixpoint blocks (outputs : list TaskOutput) : string :=
  match outputs with
  | [] => EmptyString
  | output :: rest => (result output +:+ LF +:+ LF) +:+ blocks rest
  end.

Definition SAVED : string := "Result saved to task_output.txt".

Module EdgeScenario.
Import Scenario.

(** The key is set, but to the empty string. *)
Definition empty_key : gmap string string :=
  {[ "ADZUNA_APP_ID" := "a1b2c3"; "ADZUNA_API_KEY" := EmptyString ]}.

(** A 200 answer whose body cannot be decoded. *)
Definition undecodable (e : exn) : response :=
  {| status_code := 200; reason := "OK";
     url := request_url credentials role location num_results;
     json := Raise e |}.

Definition decode_error : exn :=
  RequestException "Expecting value: line 1 column 1 (char 0)".

Definition null_results : gmap string value :=
  {[ "count" := VNum "0"; "results" := VNone ]}.

(** A good record, then one without a company name, then a good one. *)
Definition mixed_jobs : gmap string value :=
  {[ "count" := VNum "3";
     "results" := VList ([job_of analyst] ++ anonymous_job :: [job_of consultant]) ]}.

(** A record whose fields are not text, and whose description is a list. *)
Definition odd_fields : gmap string value :=
  {[ "title" := VNum "42";
     "company" := VDict {[ "display_name" := VNone ]};
     "location" := VDict {[ "display_name" := VBool true ]};
     "description" := VList [VNum "1"; VNum "2"] ]}.


(** A machine on which the log cannot be opened. *)
Definition read_only : world :=
  {| files := ∅; open_handles := []; stdout := [];
     open_error := Some "[Errno 13] Permission denied: 'task_output.txt'";
     write_error := None |}.

(** A machine with an earlier log and another file. *)
Definition used : world :=
  {| files := {[ "task_output.txt" := "Earlier run." +:+ LF +:+ LF;
                 "notes.txt" := "keep" ]};
     open_handles := []; stdout := [];
     open_error := None; write_error := None |}.

Definition advice : TaskOutput := {| result := "Practise case interviews." |}.

End EdgeScenario.

(** * Theorems *)

(** ** Strings and outcomes *)

Lemma str_take_length n s :
  String.length (str_take n s) = Nat.min n (String.length s).
Proof.
  revert s; induction n as [|n IH]; intros [|c s]; simpl; try reflexivity.
  now rewrite IH.
Qed.

Lemma str_take_prefix n s : exists rest, s = str_take n s +:+ rest.
Proof.
  revert s; induction n as [|n IH]; intros s.
  - exists s. now destruct s.
  - destruct s as [|c s]; simpl.
    + now exists EmptyString.
    + destruct (IH s) as [rest Hrest]. exists rest.
      change (String c s = String c (str_take n s +:+ rest)). now f_equal.
Qed.

Lemma str_take_all n s : (String.length s <= n)%nat -> str_take n s = s.
Proof.
  revert s; induction n as [|n IH]; intros [|c s] Hlen; simpl in *;
    try reflexivity; try lia.
  f_equal. apply IH. lia.
Qed.

Lemma str_app_assoc a b c : (a +:+ b) +:+ c = a +:+ (b +:+ c).
Proof.
  induction a as [|x a IH]; [reflexivity |].
  change (String x ((a +:+ b) +:+ c) = String x (a +:+ b +:+ c)). now f_equal.
Qed.

Lemma app_not_empty a b : a <> EmptyString -> a +:+ b <> EmptyString.
Proof. destruct a; [congruence | discriminate]. Qed.

Lemma join_not_empty sep x xs : x <> EmptyString -> join sep (x :: xs) <> EmptyString.
Proof.
  intros Hx. destruct xs as [|y ys]; simpl; [assumption |].
  now apply app_not_empty.
Qed.

Lemma str_or_not_empty a b : a <> EmptyString -> str_or a b = a.
Proof. destruct a; [congruence | reflexivity]. Qed.

Lemma line_feeds_app a b : line_feeds (a +:+ b) = (line_feeds a + line_feeds b)%nat.
Proof.
  induction a as [|x a IH]; [reflexivity |].
  change (line_feeds (String x (a +:+ b)) =
          (line_feeds (String x a) + line_feeds b)%nat).
  simpl. rewrite IH. lia.
Qed.

Lemma line_feeds_take n s : (line_feeds (str_take n s) <= line_feeds s)%nat.
Proof.
  revert s; induction n as [|n IH]; intros [|c s]; simpl; try lia.
  specialize (IH s). lia.
Qed.

Lemma line_feeds_join ls :
  Forall (fun l => line_feeds l = 0%nat) ls ->
  line_feeds (join LF ls) = pred (length ls).
Proof.
  induction 1 as [|x xs Hx Hxs IH]; [reflexivity |].
  destruct xs as [|y ys]; [exact Hx |].
  change (join LF (x :: y :: ys)) with (x +:+ LF +:+ join LF (y :: ys)).
  rewrite !line_feeds_app, Hx, IH. reflexivity.
Qed.

Lemma summary_line_one_line r : one_line_record r -> line_feeds (summary_line r) = 0%nat.
Proof.
  intros (Ht & Hc & Hl & Hd). unfold summary_line.
  pose proof (line_feeds_take 100 (rec_description r)) as Htake.
  rewrite Hd in Htake.
  generalize dependent (str_take 100 (rec_description r)). intros shown Hshown.
  rewrite !line_feeds_app, Ht, Hc, Hl. simpl. lia.
Qed.

(** The summary of n >= 1 records without line feeds has n lines. *)
Lemma summary_has_one_line_per_record records :
  Forall one_line_record records ->
  line_feeds (join LF (map summary_line records)) = pred (length records).
Proof.
  intros H. rewrite line_feeds_join, length_map; [reflexivity |].
  induction H as [|r rs Hr _ IH]; simpl; constructor;
    [now apply summary_line_one_line | exact IH].
Qed.

Lemma summary_line_not_empty r : summary_line r <> EmptyString.
Proof. unfold summary_line. discriminate. Qed.

(** ** The search tool *)

(** Both sides of a goal about one record, once its lookups are known. *)
Ltac decide_record :=
  split;
  [ intros [? H]; simpl in H; try discriminate H; reflexivity
  | intros H; simpl in H; try discriminate H; simpl; eauto ].

Ltac raised_kind :=
  simpl; intros H; try discriminate H; injection H as <-; eauto.

Section SearchJobsFacts.

Variable py_repr : value -> string.
Variable environ : gmap string string.
Variable requests_get : string -> outcome response.

Local Abbreviation search := (_search_jobs py_repr environ requests_get).
Local Abbreviation details := (job_details py_repr).
Local Abbreviation loop := (for_jobs py_repr).

(** The loop appends the lines of the jobs it formats, in order. *)
Lemma for_jobs_lines jobs lines acc :
  Forall2 (fun job line => details job = Ret line) jobs lines ->
  loop jobs acc = Ret (acc ++ lines).
Proof.
  intros H; revert acc; induction H as [|job line jobs lines Hjob _ IH]; intros acc.
  - simpl. now rewrite app_nil_r.
  - simpl. rewrite Hjob. simpl. rewrite IH. now rewrite <- app_assoc.
Qed.

Lemma job_details_represents job r :
  represents job r -> details job = Ret (summary_line r).
Proof.
  intros (d & c & l & -> & Ht & Hc & Hcn & Hl & Hln & Hd).
  unfold job_details, getitem. rewrite Ht. simpl. rewrite Hc. simpl.
  rewrite Hcn. simpl. rewrite Hl. simpl. rewrite Hln. simpl. rewrite Hd.
  reflexivity.
Qed.

(** A record is formatted exactly when it is well formed. *)
Lemma job_details_returns_iff job :
  returns (details job) <-> well_formed_record job = true.
Proof.
  unfold returns, job_details, well_formed_record, getitem.
  destruct job as [| | | | |d]; try solve [decide_record].
  destruct (d !! "title") as [t|]; simpl; try solve [decide_record].
  destruct (d !! "company") as [[| | | | |c]|]; simpl; try solve [decide_record].
  destruct (c !! "display_name") as [cn|]; simpl; try solve [decide_record].
  destruct (d !! "location") as [[| | | | |l]|]; simpl; try solve [decide_record].
  destruct (l !! "display_name") as [ln|]; simpl; try solve [decide_record].
  destruct (d !! "description") as [[| | | | |]|]; simpl; solve [decide_record].
Qed.

(** What a call does once the credentials are there. *)
Lemma search_with_credentials role location n :
  credentials_present environ ->
  search role location n =
    try_except_RequestException
      (response <- requests_get (request_url environ role location n) ;;
       _ <- raise_for_status response ;;
       jobs_data <- json response ;;
       results <- dict_get jobs_data "results" (VList []) ;;
       jobs <- iterate results ;;
       job_listings <- loop jobs [] ;;
       Ret (str_or (join LF job_listings) NO_JOBS))
      (fun e => Ret ("Request error: " +:+ e)).
Proof.
  intros [Hid Hkey]. unfold _search_jobs. rewrite Hid, Hkey. reflexivity.
Qed.

(** What a call does with a successful response: the body is all that counts. *)
Lemma search_on_body role location n body :
  successful_response environ requests_get role location n body ->
  search role location n =
    try_except_RequestException
      (results <- dict_get body "results" (VList []) ;;
       jobs <- iterate results ;;
       job_listings <- loop jobs [] ;;
       Ret (str_or (join LF job_listings) NO_JOBS))
      (fun e => Ret ("Request error: " +:+ e)).
Proof.
  intros (Hcred & r & Hget & Hstatus & Hjson).
  rewrite search_with_credentials by assumption.
  rewrite Hget. simpl. unfold raise_for_status. rewrite Hstatus. simpl.
  rewrite Hjson. reflexivity.
Qed.

(** A credential that is set but empty counts as missing. *)
Lemma search_jobs_empty_credentials role location n :
  environ !! "ADZUNA_APP_ID" = Some EmptyString \/
  environ !! "ADZUNA_API_KEY" = Some EmptyString ->
  search role location n = Ret MISSING_CREDENTIALS.
Proof.
  intros H. unfold _search_jobs, os_getenv.
  destruct H as [-> | ->]; simpl; [reflexivity |].
  now rewrite orb_true_r.
Qed.

(** Formatting a record raises nothing but [TypeError] and [KeyError]. *)
Lemma job_details_raise_kind job e :
  details job = Raise e -> e = TypeError \/ exists k, e = KeyError k.
Proof.
  unfold job_details, getitem.
  destruct job as [| | | | |d]; try solve [raised_kind].
  destruct (d !! "title") as [t|]; simpl; try solve [raised_kind].
  destruct (d !! "company") as [[| | | | |c]|]; simpl; try solve [raised_kind].
  destruct (c !! "display_name") as [cn|]; simpl; try solve [raised_kind].
  destruct (d !! "location") as [[| | | | |l]|]; simpl; try solve [raised_kind].
  destruct (l !! "display_name") as [ln|]; simpl; try solve [raised_kind].
  destruct (d !! "description") as [[| | | | |]|]; simpl; solve [raised_kind].
Qed.

(** The loop raises as soon as a record is not well formed. *)
Lemma for_jobs_malformed jobs acc :
  forallb well_formed_record jobs = false ->
  exists e, loop jobs acc = Raise e /\ (e = TypeError \/ exists k, e = KeyError k).
Proof.
  revert acc; induction jobs as [|job jobs IH]; intros acc Hbad; [discriminate |].
  simpl in *. destruct (details job) as [line|e] eqn:Hjob; simpl.
  - assert (Hwf : well_formed_record job = true)
      by (apply job_details_returns_iff; now exists line).
    rewrite Hwf in Hbad. now apply IH.
  - exists e. split; [reflexivity | now apply job_details_raise_kind in Hjob].
Qed.

(** A successful response with a record that is not well formed makes the
    call raise: the handler of line 36 does not apply. *)
Lemma search_jobs_malformed_record role location n d jobs :
  successful_response environ requests_get role location n (VDict d) ->
  d !! "results" = Some (VList jobs) ->
  forallb well_formed_record jobs = false ->
  exists e, search role location n = Raise e /\
            (e = TypeError \/ exists k, e = KeyError k).
Proof.
  intros Hok Hres Hbad. rewrite (search_on_body _ _ _ _ Hok).
  simpl. rewrite Hres. simpl.
  destruct (for_jobs_malformed jobs [] Hbad) as (e & -> & Hkind).
  exists e. split; [| exact Hkind].
  destruct Hkind as [-> | [k ->]]; reflexivity.
Qed.

(** C2: when either credential variable is absent from the environment,
    [_search_jobs] returns exactly the missing-credentials message. *)
Theorem search_jobs_missing_credentials role location n :
  environ !! "ADZUNA_APP_ID" = None \/ environ !! "ADZUNA_API_KEY" = None ->
  search role location n =
    Ret "Missing ADZUNA_APP_ID or ADZUNA_API_KEY environment variables.".
Proof.
  intros H. unfold _search_jobs, os_getenv.
  destruct H as [-> | ->]; simpl; [reflexivity |].
  now rewrite orb_true_r.
Qed.

(** C3: when the GET fails at the transport level or comes back with a
    non-success (4xx or 5xx) status, [_search_jobs] returns
    "Request error: " followed by the text of the failure. *)
Theorem search_jobs_request_error role location n details :
  credentials_present environ ->
  request_failure (requests_get (request_url environ role location n)) = Some details ->
  search role location n = Ret ("Request error: " +:+ details).
Proof.
  intros Hcred Hfail. rewrite search_with_credentials by assumption.
  destruct (requests_get _) as [r|[msg| | | | |]]; simpl in *; try discriminate.
  - unfold raise_for_status. destruct (is_error_status r); [|discriminate].
    injection Hfail as <-. reflexivity.
  - injection Hfail as <-. reflexivity.
Qed.

(** C4: a successful response whose body holds zero result records gives
    exactly "No jobs found.". *)
Theorem search_jobs_no_records role location n d :
  successful_response environ requests_get role location n (VDict d) ->
  d !! "results" = Some (VList []) ->
  search role location n = Ret "No jobs found.".
Proof.
  intros Hok Hres. rewrite (search_on_body _ _ _ _ Hok).
  simpl. rewrite Hres. reflexivity.
Qed.

(** C10: a successful response whose body is an object without a [results]
    key is treated as zero records: the call returns "No jobs found.". *)
Theorem search_jobs_no_results_key role location n d :
  successful_response environ requests_get role location n (VDict d) ->
  d !! "results" = None ->
  search role location n = Ret "No jobs found.".
Proof.
  intros Hok Hres. rewrite (search_on_body _ _ _ _ Hok).
  simpl. rewrite Hres. reflexivity.
Qed.

(** C5: a successful response with n >= 1 result records gives the n summary
    lines "Title: .., Company: .., Location: .., Description: <first 100
    characters>...", one per record and in order, joined by a newline. *)
Theorem search_jobs_summary_lines role location n d jobs records :
  successful_response environ requests_get role location n (VDict d) ->
  d !! "results" = Some (VList jobs) ->
  Forall2 represents jobs records ->
  (1 <= length records)%nat ->
  search role location n = Ret (join LF (map summary_line records)) /\
  length (map summary_line records) = length jobs /\
  (Forall one_line_record records ->
   line_feeds (join LF (map summary_line records)) = (length jobs - 1)%nat).
Proof.
  intros Hok Hres Hrep Hlen.
  assert (Hsame : length jobs = length records) by (eapply Forall2_length; exact Hrep).
  split; [| split].
  - rewrite (search_on_body _ _ _ _ Hok). simpl. rewrite Hres. simpl.
    rewrite (for_jobs_lines jobs (map summary_line records) []).
    + simpl. destruct records as [|r rs]; [simpl in Hlen; lia |].
      simpl map. rewrite str_or_not_empty; [reflexivity |].
      apply join_not_empty, summary_line_not_empty.
    + clear -Hrep. induction Hrep as [|job r jobs rs Hjob _ IH]; simpl.
      * constructor.
      * constructor; [now apply job_details_represents | exact IH].
  - rewrite length_map. now symmetry.
  - intros Hone. rewrite summary_has_one_line_per_record by assumption. lia.
Qed.

(** C6: in the summary line of a record, the description shown is the first
    100 characters of the original description (all of it when it is
    shorter), followed by the ellipsis "...". *)
Theorem job_details_description_truncated job r :
  represents job r ->
  exists head shown,
    details job = Ret (head +:+ ", Description: " +:+ shown +:+ "...") /\
    head = "Title: " +:+ rec_title r +:+ ", Company: " +:+ rec_company r +:+
           ", Location: " +:+ rec_location r /\
    shown = str_take 100 (rec_description r) /\
    String.length shown = Nat.min 100 (String.length (rec_description r)) /\
    (String.length shown <= 100)%nat /\
    (exists rest, rec_description r = shown +:+ rest) /\
    ((String.length (rec_description r) <= 100)%nat -> shown = rec_description r).
Proof.
  intros Hrep.
  exists ("Title: " +:+ rec_title r +:+ ", Company: " +:+ rec_company r +:+
          ", Location: " +:+ rec_location r), (str_take 100 (rec_description r)).
  split; [| split; [reflexivity | split; [reflexivity | split; [apply str_take_length | split; [| split]]]]].
  - rewrite (job_details_represents _ _ Hrep). unfold summary_line.
    rewrite !str_app_assoc. reflexivity.
  - rewrite str_take_length. lia.
  - apply str_take_prefix.
  - apply str_take_all.
Qed.

(** C1, as the code has it: with the credentials missing, with a GET that
    raises a [RequestException], with a 4xx or 5xx status, with a body that
    [response.json()] rejects by a [RequestException], and with a successful
    response whose body is an object whose [results] is absent or a list of
    well-formed records, [_search_jobs] returns a string. *)
Theorem search_jobs_returns_string role location n :
  ~ credentials_present environ \/
  upstream_benign (requests_get (request_url environ role location n)) = true ->
  returns (search role location n).
Proof.
  intros H. unfold returns.
  destruct (py_not (os_getenv environ "ADZUNA_APP_ID")) eqn:Hid.
  { exists MISSING_CREDENTIALS. unfold _search_jobs. now rewrite Hid. }
  destruct (py_not (os_getenv environ "ADZUNA_API_KEY")) eqn:Hkey.
  { exists MISSING_CREDENTIALS. unfold _search_jobs. now rewrite Hid, Hkey. }
  destruct H as [Hno | Hup]; [exfalso; apply Hno; now split |].
  rewrite search_with_credentials by now split.
  destruct (requests_get _) as [r|[msg| | | | |]]; simpl in *; try discriminate;
    [| eauto].
  unfold raise_for_status. destruct (is_error_status r); simpl in *; [eauto |].
  destruct (json r) as [body|[msg| | | | |]]; simpl in *; try discriminate;
    [| eauto].
  destruct body as [| | | | |d]; simpl in *; try discriminate.
  destruct (d !! "results") as [[| | | |jobs|]|]; simpl in *; try discriminate;
    [| eauto].
  assert (Hlines : exists lines,
             Forall2 (fun job line => details job = Ret line) jobs lines).
  { clear -Hup. induction jobs as [|job jobs IH]; simpl in Hup.
    - exists []. constructor.
    - apply andb_prop in Hup as [Hjob Hrest].
      apply job_details_returns_iff in Hjob as [line Hline].
      destruct (IH Hrest) as [lines Hlines].
      exists (line :: lines). now constructor. }
  destruct Hlines as [lines Hlines].
  rewrite (for_jobs_lines jobs lines [] Hlines). simpl. eauto.
Qed.

End SearchJobsFacts.

(** ** The completion hook *)

Lemma remove_handle_head file hs : remove_handle file (file :: hs) = hs.
Proof. simpl. now rewrite String.eqb_refl. Qed.

(** A run of the hook when the operating system lets it open and write. *)
Lemma callback_function_run output w :
  open_error w = None -> write_error w = None ->
  callback_function output w =
    (World (<[TASK_OUTPUT_FILE := store w +:+ result output +:+ LF +:+ LF]> (files w))
           (open_handles w)
           (stdout w ++ ["Result saved to task_output.txt"])
           None None,
     Ret tt).
Proof.
  intros Hopen Hwrite.
  unfold callback_function, bindM, with_open_append, open_append, file_write,
    file_close, print, store.
  rewrite Hopen. simpl. rewrite Hwrite. simpl.
  rewrite lookup_insert_eq, insert_insert_eq.
  reflexivity.
Qed.

(** C7: an invocation of the hook appends the task result followed by a blank
    line to the store, keeping what was there (and every other file); a second
    invocation with the same result appends a second block. *)
Theorem callback_function_appends output w :
  open_error w = None -> write_error w = None ->
  let block := result output +:+ LF +:+ LF in
  let w1 := fst (callback_function output w) in
  let w2 := fst (callback_function output w1) in
  snd (callback_function output w) = Ret tt /\
  store w1 = store w +:+ block /\
  (forall path, path <> TASK_OUTPUT_FILE -> files w1 !! path = files w !! path) /\
  snd (callback_function output w1) = Ret tt /\
  store w2 = (store w +:+ block) +:+ block.
Proof.
  intros Hopen Hwrite block w1 w2.
  assert (E1 : callback_function output w = (w1, Ret tt)).
  { subst w1. now rewrite callback_function_run. }
  assert (Hw1 : w1 = fst (callback_function output w)) by reflexivity.
  rewrite callback_function_run in Hw1 by assumption. simpl in Hw1.
  assert (Hs1 : store w1 = store w +:+ block).
  { rewrite Hw1. unfold store at 1. simpl. now rewrite lookup_insert_eq. }
  assert (Ho1 : open_error w1 = None) by now rewrite Hw1.
  assert (Hr1 : write_error w1 = None) by now rewrite Hw1.
  repeat split.
  - now rewrite E1.
  - exact Hs1.
  - intros path Hpath. rewrite Hw1. simpl. now rewrite lookup_insert_ne.
  - now rewrite callback_function_run.
  - subst w2. rewrite callback_function_run by assumption. unfold store at 1.
    simpl. rewrite lookup_insert_eq. simpl. now rewrite Hs1.
Qed.

(** C8, as the code has it: when the write fails, the [with] block still
    closes the handle, but the [OSError] goes out of the hook to its caller
    and nothing is printed. *)
Theorem callback_function_write_failure output w msg :
  open_error w = None -> write_error w = Some msg ->
  snd (callback_function output w) = Raise (OSError msg) /\
  open_handles (fst (callback_function output w)) = open_handles w /\
  stdout (fst (callback_function output w)) = stdout w.
Proof.
  intros Hopen Hwrite.
  unfold callback_function, bindM, with_open_append, open_append, file_write,
    file_close, print.
  rewrite Hopen. simpl. rewrite Hwrite. simpl.
  repeat split.
Qed.

(** When the file cannot be opened the hook raises as well, with no handle
    left behind. *)
Lemma callback_function_open_failure output w msg :
  open_error w = Some msg ->
  callback_function output w = (w, Raise (OSError msg)).
Proof.
  intros Hopen.
  unfold callback_function, bindM, with_open_append, open_append.
  now rewrite Hopen.
Qed.

(** ** The crew *)

Lemma downstream_context t : t ∈ downstream_tasks -> context t = [job_search_task].
Proof.
  unfold downstream_tasks. rewrite !elem_of_cons, elem_of_nil.
  intros [-> | [-> | [-> | []]]]; reflexivity.
Qed.

Lemma downstream_in_crew t : t ∈ downstream_tasks -> t ∈ tasks job_search_crew.
Proof.
  unfold downstream_tasks. simpl. rewrite !elem_of_cons, elem_of_nil. tauto.
Qed.

Lemma downstream_not_root t : t ∈ downstream_tasks -> t <> job_search_task.
Proof.
  unfold downstream_tasks. rewrite !elem_of_cons, elem_of_nil.
  intros [-> | [-> | [-> | []]]]; discriminate.
Qed.

Lemma eligible_context c frozen t d :
  eligible c frozen t = true -> d ∈ context t -> d ∈ frozen.
Proof.
  unfold eligible. intros [_ Hctx]%andb_prop Hd.
  rewrite forallb_forall in Hctx.
  apply list_elem_of_In in Hd. apply Hctx in Hd.
  now apply bool_decide_eq_true in Hd.
Qed.

Lemma eligible_intro c frozen t :
  t ∈ tasks c -> t ∉ frozen -> (forall d, d ∈ context t -> d ∈ frozen) ->
  eligible c frozen t = true.
Proof.
  intros Hc Hfresh Hctx. unfold eligible.
  rewrite (bool_decide_eq_true_2 _ Hc), (bool_decide_eq_false_2 _ Hfresh). simpl.
  apply forallb_forall. intros d Hd. apply bool_decide_eq_true, Hctx.
  now apply list_elem_of_In.
Qed.

(** In an execution every task runs after all the tasks of its context. *)
Lemma execution_respects_context c trace t d :
  execution c trace -> t ∈ trace -> d ∈ context t -> frozen_before d t trace.
Proof.
  intros Hexec; induction Hexec as [|frozen t' Hexec IH Helig]; intros Ht Hd.
  - now apply elem_of_nil in Ht.
  - apply elem_of_app in Ht as [Ht | Ht].
    + destruct (IH Ht Hd) as (before & after & -> & Hbefore).
      exists before, (after ++ [t']). split; [| assumption].
      now rewrite <- app_assoc.
    + apply list_elem_of_singleton in Ht as ->.
      exists frozen, []. split; [reflexivity |].
      eapply eligible_context; eassumption.
Qed.

(** The job search first, then downstream tasks in any order without
    repetition: an execution. *)
Lemma execution_any_order order :
  NoDup order -> (forall t, t ∈ order -> t ∈ downstream_tasks) ->
  execution job_search_crew (job_search_task :: order).
Proof.
  induction order as [|t order IH] using rev_ind; intros Hnd Hin.
  - apply (exec_step job_search_crew [] job_search_task); [constructor | reflexivity].
  - apply NoDup_app in Hnd as (Hnd & Hfresh & _).
    change (execution job_search_crew ((job_search_task :: order) ++ [t])).
    assert (Ht : t ∈ downstream_tasks) by (apply Hin, elem_of_app; right; constructor).
    apply exec_step.
    + apply IH; [assumption |]. intros u Hu. apply Hin, elem_of_app. now left.
    + apply eligible_intro.
      * now apply downstream_in_crew.
      * rewrite elem_of_cons. intros [Heq | Hmem].
        -- now apply downstream_not_root in Ht.
        -- apply (Hfresh t Hmem). constructor.
      * intros d. rewrite (downstream_context t Ht).
        intros ->%list_elem_of_singleton. constructor.
Qed.

(** C9: each of the three downstream tasks has the job search task as its
    whole context; in every execution the job search task has its result
    before a downstream task runs; and the three downstream tasks may run in
    any order after it. *)
Theorem pipeline_dependencies_and_order :
  (forall t, t ∈ downstream_tasks -> context t = [job_search_task]) /\
  (forall trace t,
     execution job_search_crew trace -> t ∈ downstream_tasks -> t ∈ trace ->
     frozen_before job_search_task t trace) /\
  (forall order,
     Permutation order downstream_tasks ->
     execution job_search_crew (job_search_task :: order)).
Proof.
  split; [exact downstream_context | split].
  - intros trace t Hexec Ht Hmem.
    apply (execution_respects_context _ _ _ _ Hexec Hmem).
    rewrite (downstream_context t Ht). constructor.
  - intros order Hperm. apply execution_any_order.
    + rewrite Hperm. unfold downstream_tasks.
      repeat (constructor; [rewrite ?elem_of_cons, ?elem_of_nil; intuition discriminate |]).
      constructor.
    + intros t Ht. now rewrite <- Hperm.
Qed.

(** ** The scenarios, run *)

Module ScenarioFacts.
Import Scenario.

Example url_of_the_call :
  request_url credentials role location num_results =
  "http://api.adzuna.com/v1/api/jobs/us/search/1?app_id=a1b2c3&app_key=0123456789abcdef&results_per_page=10&what=Senior Business Analyst&where=New York&content-type=application/json".
Proof. vm_compute. reflexivity. Qed.

Example two_records_two_lines :
  search (answers (Ret (ok (VDict two_jobs)))) =
  Ret ("Title: Senior Business Analyst, Company: Acme Corp, Location: New York, NY, Description: We are looking for a Senior Business Analyst to join our New York team and lead requirements gatheri..."
       +:+ LF +:+
       "Title: Business Analyst Consultant, Company: Initech, Location: Brooklyn, New York, Description: Short role summary....").
Proof. vm_compute. reflexivity. Qed.

Example status_403 :
  search (answers (Ret forbidden)) =
  Ret "Request error: 403 Client Error: Forbidden for url: http://api.adzuna.com/v1/api/jobs/us/search/1?app_id=a1b2c3&app_key=0123456789abcdef&results_per_page=10&what=Senior Business Analyst&where=New York&content-type=application/json".
Proof. vm_compute. reflexivity. Qed.

Example connection_refused :
  search (answers (Raise (RequestException "Connection refused"))) =
  Ret "Request error: Connection refused".
Proof. vm_compute. reflexivity. Qed.

Example hook_on_fresh_disk :
  callback_function report fresh =
  ({| files := {[ "task_output.txt" := "Ten openings found." +:+ LF +:+ LF ]};
      open_handles := []; stdout := ["Result saved to task_output.txt"];
      open_error := None; write_error := None |},
   Ret tt).
Proof. vm_compute. reflexivity. Qed.

(** The scenario's credentials are there, and a 200 answer is a success. *)
Lemma scenario_credentials : credentials_present credentials.
Proof. split; vm_compute; reflexivity. Qed.

Lemma scenario_success body :
  successful_response credentials (answers (Ret (ok body)))
                      role location num_results body.
Proof.
  split; [exact scenario_credentials |].
  exists (ok body). repeat split.
Qed.

Lemma job_of_represents r : represents (job_of r) r.
Proof.
  exists {[ "title" := VStr (rec_title r);
            "company" := VDict {[ "display_name" := VStr (rec_company r) ]};
            "location" := VDict {[ "display_name" := VStr (rec_location r) ]};
            "description" := VStr (rec_description r) ]},
         {[ "display_name" := VStr (rec_company r) ]},
         {[ "display_name" := VStr (rec_location r) ]}.
  repeat split.
Qed.

(** C1, as stated, fails: a 200 answer with a record whose company has no
    [display_name] makes the call raise [KeyError]. *)
Lemma search_jobs_propagates_KeyError :
  credentials_present credentials /\
  search (answers (Ret (ok (VDict anonymous_jobs)))) = Raise (KeyError "display_name") /\
  ~ returns (search (answers (Ret (ok (VDict anonymous_jobs))))).
Proof.
  split; [exact scenario_credentials |].
  assert (E : search (answers (Ret (ok (VDict anonymous_jobs))))
              = Raise (KeyError "display_name")) by (vm_compute; reflexivity).
  split; [exact E |]. rewrite E. intros [line Hline]. discriminate Hline.
Qed.

Lemma search_jobs_returns_string_witness :
  (~ credentials_present credentials \/
   upstream_benign (answers (Ret (ok (VDict two_jobs)))
                            (request_url credentials role location num_results)) = true) /\
  returns (search (answers (Ret (ok (VDict two_jobs))))).
Proof.
  assert (H : ~ credentials_present credentials \/
              upstream_benign (answers (Ret (ok (VDict two_jobs)))
                (request_url credentials role location num_results)) = true)
    by (right; vm_compute; reflexivity).
  split; [exact H |].
  exact (search_jobs_returns_string repr credentials _ role location num_results H).
Defined.

Lemma search_jobs_missing_credentials_witness :
  (no_credentials !! "ADZUNA_APP_ID" = None \/
   no_credentials !! "ADZUNA_API_KEY" = None) /\
  _search_jobs repr no_credentials (answers (Ret (ok (VDict two_jobs))))
               role location num_results =
    Ret "Missing ADZUNA_APP_ID or ADZUNA_API_KEY environment variables.".
Proof.
  assert (H : no_credentials !! "ADZUNA_APP_ID" = None \/
              no_credentials !! "ADZUNA_API_KEY" = None) by (left; reflexivity).
  split; [exact H |].
  exact (search_jobs_missing_credentials repr no_credentials _ role location num_results H).
Defined.

Lemma search_jobs_request_error_witness :
  credentials_present credentials /\
  request_failure (answers (Ret forbidden)
                           (request_url credentials role location num_results))
    = Some (http_error_msg forbidden) /\
  search (answers (Ret forbidden)) = Ret ("Request error: " +:+ http_error_msg forbidden).
Proof.
  split; [exact scenario_credentials |]. split; [reflexivity |].
  apply (search_jobs_request_error repr credentials (answers (Ret forbidden))
           role location num_results (http_error_msg forbidden)
           scenario_credentials).
  reflexivity.
Defined.

Lemma search_jobs_no_records_witness :
  successful_response credentials (answers (Ret (ok (VDict no_jobs))))
                      role location num_results (VDict no_jobs) /\
  no_jobs !! "results" = Some (VList []) /\
  search (answers (Ret (ok (VDict no_jobs)))) = Ret "No jobs found.".
Proof.
  split; [apply scenario_success |]. split; [reflexivity |].
  apply (search_jobs_no_records repr credentials _ role location num_results no_jobs
           (scenario_success _)).
  reflexivity.
Defined.

Lemma search_jobs_no_results_key_witness :
  successful_response credentials (answers (Ret (ok (VDict no_results_key))))
                      role location num_results (VDict no_results_key) /\
  no_results_key !! "results" = None /\
  search (answers (Ret (ok (VDict no_results_key)))) = Ret "No jobs found.".
Proof.
  split; [apply scenario_success |]. split; [reflexivity |].
  apply (search_jobs_no_results_key repr credentials _ role location num_results
           no_results_key (scenario_success _)).
  reflexivity.
Defined.

Lemma search_jobs_summary_lines_witness :
  successful_response credentials (answers (Ret (ok (VDict two_jobs))))
                      role location num_results (VDict two_jobs) /\
  two_jobs !! "results" = Some (VList [job_of analyst; job_of consultant]) /\
  Forall2 represents [job_of analyst; job_of consultant] [analyst; consultant] /\
  (1 <= length [analyst; consultant])%nat /\
  search (answers (Ret (ok (VDict two_jobs)))) =
    Ret (summary_line analyst +:+ LF +:+ summary_line consultant) /\
  length (map summary_line [analyst; consultant]) = 2%nat /\
  (Forall one_line_record [analyst; consultant] ->
   line_feeds (summary_line analyst +:+ LF +:+ summary_line consultant) = 1%nat).
Proof.
  assert (Hrep : Forall2 represents [job_of analyst; job_of consultant]
                                    [analyst; consultant])
    by (repeat constructor; apply job_of_represents).
  assert (Hres : two_jobs !! "results" = Some (VList [job_of analyst; job_of consultant]))
    by reflexivity.
  assert (Hlen : (1 <= length [analyst; consultant])%nat) by (simpl; lia).
  split; [apply scenario_success |]. split; [exact Hres |].
  split; [exact Hrep |]. split; [exact Hlen |].
  exact (search_jobs_summary_lines repr credentials _ role location num_results
           two_jobs _ _ (scenario_success _) Hres Hrep Hlen).
Defined.

Lemma job_details_description_truncated_witness :
  represents (job_of analyst) analyst /\
  exists head shown,
    job_details repr (job_of analyst) =
      Ret (head +:+ ", Description: " +:+ shown +:+ "...") /\
    head = "Title: " +:+ rec_title analyst +:+ ", Company: " +:+ rec_company analyst +:+
           ", Location: " +:+ rec_location analyst /\
    shown = str_take 100 (rec_description analyst) /\
    String.length shown = Nat.min 100 (String.length (rec_description analyst)) /\
    (String.length shown <= 100)%nat /\
    (exists rest, rec_description analyst = shown +:+ rest) /\
    ((String.length (rec_description analyst) <= 100)%nat ->
     shown = rec_description analyst).
Proof.
  split; [apply job_of_represents |].
  exact (job_details_description_truncated repr (job_of analyst) analyst
           (job_of_represents analyst)).
Defined.

Lemma callback_function_appends_witness :
  open_error fresh = None /\ write_error fresh = None /\
  snd (callback_function report fresh) = Ret tt /\
  store (fst (callback_function report fresh)) =
    store fresh +:+ result report +:+ LF +:+ LF /\
  store (fst (callback_function report (fst (callback_function report fresh)))) =
    (store fresh +:+ result report +:+ LF +:+ LF) +:+ result report +:+ LF +:+ LF.
Proof.
  pose proof (callback_function_appends report fresh eq_refl eq_refl) as H.
  simpl in H. destruct H as (H1 & H2 & _ & _ & H5).
  repeat split; assumption.
Defined.

(** C8, as stated, fails: on a full disk the [OSError] of the write leaves
    the hook, and nothing is printed. *)
Lemma callback_function_propagates_OSError :
  write_error disk_full = Some "[Errno 28] No space left on device" /\
  snd (callback_function report disk_full) =
    Raise (OSError "[Errno 28] No space left on device") /\
  stdout (fst (callback_function report disk_full)) = [] /\
  ~ returns (snd (callback_function report disk_full)).
Proof.
  split; [reflexivity |]. split; [reflexivity |]. split; [reflexivity |].
  intros [u Hu]. discriminate Hu.
Qed.

Lemma callback_function_write_failure_witness :
  open_error disk_full = None /\
  write_error disk_full = Some "[Errno 28] No space left on device" /\
  snd (callback_function report disk_full) =
    Raise (OSError "[Errno 28] No space left on device") /\
  open_handles (fst (callback_function report disk_full)) = open_handles disk_full /\
  stdout (fst (callback_function report disk_full)) = stdout disk_full.
Proof.
  split; [reflexivity |]. split; [reflexivity |].
  exact (callback_function_write_failure report disk_full _ eq_refl eq_refl).
Defined.

End ScenarioFacts.

(** ** The search tool: edges *)

Lemma bind_returns_inv {A B : Type} (m : outcome A) (k : A -> outcome B) b :
  Py.bind m k = Ret b -> exists a, m = Ret a /\ k a = Ret b.
Proof. destruct m as [a|e]; simpl; [eauto | discriminate]. Qed.

Lemma try_except_returns_inv {A : Type} (body : outcome A) handler a :
  try_except_RequestException body handler = Ret a ->
  body = Ret a \/ exists msg, handler msg = Ret a.
Proof.
  destruct body as [x|[msg| | | | |]]; simpl; intros H; try discriminate H; eauto.
Qed.

Lemma str_or_default_not_empty a b : b <> EmptyString -> str_or a b <> EmptyString.
Proof. destruct a; simpl; [trivial | discriminate]. Qed.

Section SearchJobsEdges.

Variable py_repr : value -> string.
Variable environ : gmap string string.
Variable requests_get : string -> outcome response.

Local Abbreviation search := (_search_jobs py_repr environ requests_get).
Local Abbreviation details := (job_details py_repr).
Local Abbreviation loop := (for_jobs py_repr).
Local Abbreviation render := (format_value py_repr).

(** Well-formed records are all formatted. *)
Lemma for_jobs_well_formed jobs :
  forallb well_formed_record jobs = true ->
  exists lines, Forall2 (fun job line => details job = Ret line) jobs lines.
Proof.
  induction jobs as [|job jobs IH]; simpl; intros Hwf.
  - exists []. constructor.
  - apply andb_prop in Hwf as [Hjob Hrest].
    apply (job_details_returns_iff py_repr) in Hjob as [line Hline].
    destruct (IH Hrest) as [lines Hlines].
    exists (line :: lines). now constructor.
Qed.

(** The loop stops at the first record that cannot be formatted. *)
Lemma for_jobs_first_failure good bad rest acc e :
  forallb well_formed_record good = true ->
  details bad = Raise e ->
  loop (good ++ bad :: rest) acc = Raise e.
Proof.
  revert acc; induction good as [|job good IH]; simpl; intros acc Hwf Hbad.
  - now rewrite Hbad.
  - apply andb_prop in Hwf as [Hjob Hgood].
    apply (job_details_returns_iff py_repr) in Hjob as [line ->]. simpl.
    now apply IH.
Qed.

(** X1: a credential variable that is set to the empty string counts as
    missing: the call returns the missing-credentials message. *)
Theorem search_jobs_blank_credentials role location n :
  environ !! "ADZUNA_APP_ID" = Some EmptyString \/
  environ !! "ADZUNA_API_KEY" = Some EmptyString ->
  search role location n =
    Ret "Missing ADZUNA_APP_ID or ADZUNA_API_KEY environment variables.".
Proof.
  intros H. unfold _search_jobs, os_getenv.
  destruct H as [-> | ->]; simpl; [reflexivity |].
  now rewrite orb_true_r.
Qed.

(** X2: whatever the environment and the network do, a string that the call
    returns is not empty. *)
Theorem search_jobs_never_empty role location n s :
  search role location n = Ret s -> s <> EmptyString.
Proof.
  unfold _search_jobs.
  destruct (py_not _ || py_not _).
  - intros [= <-]. discriminate.
  - intros H. apply try_except_returns_inv in H as [H | [msg H]].
    + repeat (apply bind_returns_inv in H as (? & _ & H); cbv beta in H).
      injection H as <-. now apply str_or_default_not_empty.
    + injection H as <-. discriminate.
Qed.

(** X3: on a successful response whose [results] is a list, the call returns
    a string exactly when every record is well formed. *)
Theorem search_jobs_returns_iff_well_formed role location n d jobs :
  successful_response environ requests_get role location n (VDict d) ->
  d !! "results" = Some (VList jobs) ->
  (returns (search role location n) <-> forallb well_formed_record jobs = true).
Proof.
  intros Hok Hres. split.
  - intros [s Hs]. destruct (forallb well_formed_record jobs) eqn:Hwf; [reflexivity |].
    destruct (search_jobs_malformed_record py_repr _ _ _ _ _ _ _ Hok Hres Hwf)
      as (e & He & _).
    rewrite He in Hs. discriminate Hs.
  - intros Hwf. destruct (for_jobs_well_formed jobs Hwf) as [lines Hlines].
    rewrite (search_on_body _ _ _ _ _ _ _ Hok). simpl. rewrite Hres. simpl.
    rewrite (for_jobs_lines py_repr jobs lines [] Hlines). simpl.
    unfold returns. eauto.
Qed.

(** X4: when a record cannot be formatted and the records before it are well
    formed, the call raises the exception of that record: the lines made so
    far are lost and the records after it are not looked at. *)
Theorem search_jobs_first_bad_record role location n d good bad rest e :
  successful_response environ requests_get role location n (VDict d) ->
  d !! "results" = Some (VList (good ++ bad :: rest)) ->
  forallb well_formed_record good = true ->
  details bad = Raise e ->
  search role location n = Raise e.
Proof.
  intros Hok Hres Hgood Hbad.
  rewrite (search_on_body _ _ _ _ _ _ _ Hok). simpl. rewrite Hres. simpl.
  rewrite (for_jobs_first_failure good bad rest [] e Hgood Hbad).
  destruct (job_details_raise_kind py_repr bad e Hbad) as [-> | [k ->]]; reflexivity.
Qed.

(** X5: a successful response whose body is not a JSON object (a list, a
    string, null, ...) makes the call raise [AttributeError]. *)
Theorem search_jobs_body_not_object role location n body :
  successful_response environ requests_get role location n body ->
  is_dict body = false ->
  search role location n = Raise AttributeError.
Proof.
  intros Hok Hbody. rewrite (search_on_body _ _ _ _ _ _ _ Hok).
  destruct body; try discriminate Hbody; reflexivity.
Qed.

(** X6: a successful response whose [results] is null, a bool or a number
    makes the call raise [TypeError]. *)
Theorem search_jobs_results_not_iterable role location n d results :
  successful_response environ requests_get role location n (VDict d) ->
  d !! "results" = Some results ->
  not_iterable results = true ->
  search role location n = Raise TypeError.
Proof.
  intros Hok Hres Hnot. rewrite (search_on_body _ _ _ _ _ _ _ Hok).
  simpl. rewrite Hres. simpl.
  destruct results; try discriminate Hnot; reflexivity.
Qed.

(** X7: when [response.json()] raises on a response with a success status, a
    [RequestException] becomes "Request error: ..." and any other exception
    leaves the call. *)
Theorem search_jobs_json_raises role location n r e :
  credentials_present environ ->
  requests_get (request_url environ role location n) = Ret r ->
  is_error_status r = false ->
  json r = Raise e ->
  search role location n = handled e.
Proof.
  intros Hcred Hget Hstatus Hjson.
  rewrite search_with_credentials by assumption.
  rewrite Hget. simpl. unfold raise_for_status. rewrite Hstatus. simpl.
  rewrite Hjson. destruct e; reflexivity.
Qed.

(** X8: an exception of [requests.get] that is not a [RequestException]
    leaves the call as it is. *)
Theorem search_jobs_get_raises_other role location n e :
  credentials_present environ ->
  requests_get (request_url environ role location n) = Raise e ->
  (forall msg, e <> RequestException msg) ->
  search role location n = Raise e.
Proof.
  intros Hcred Hget Hother.
  rewrite search_with_credentials by assumption.
  rewrite Hget. destruct e as [msg| | | | |]; try reflexivity.
  now destruct (Hother msg).
Qed.


(** X10: a record that is not an object raises [TypeError]; an object
    without a title raises [KeyError('title')], and one whose company has no
    [display_name] raises [KeyError('display_name')], whatever else they
    hold. *)
Theorem job_details_missing_key :
  (forall job, is_dict job = false -> details job = Raise TypeError) /\
  (forall d, d !! "title" = None -> details (VDict d) = Raise (KeyError "title")) /\
  (forall d c title,
     d !! "title" = Some title -> d !! "company" = Some (VDict c) ->
     c !! "display_name" = None ->
     details (VDict d) = Raise (KeyError "display_name")).
Proof.
  split; [| split].
  - intros job Hjob. destruct job; try discriminate Hjob; reflexivity.
  - intros d Ht. unfold job_details, getitem. now rewrite Ht.
  - intros d c title Ht Hc Hcn. unfold job_details, getitem.
    rewrite Ht. simpl. rewrite Hc. simpl. now rewrite Hcn.
Qed.


End SearchJobsEdges.

(** ** The completion hook: edges *)

Lemma str_app_empty_r s : s +:+ EmptyString = s.
Proof.
  induction s as [|c s IH]; [reflexivity |].
  change (String c (s +:+ EmptyString) = String c s). now f_equal.
Qed.

(** A run of the hook when the file opens and the write is refused. *)
Lemma callback_function_refused output w msg :
  open_error w = None -> write_error w = Some msg ->
  callback_function output w =
    (World (<[TASK_OUTPUT_FILE := store w]> (files w))
           (open_handles w) (stdout w) None (Some msg),
     Raise (OSError msg)).
Proof.
  intros Hopen Hwrite.
  unfold callback_function, bindM, with_open_append, open_append, file_write,
    file_close, print, store.
  rewrite Hopen. simpl. rewrite Hwrite. reflexivity.
Qed.

(** The three ways a call of the hook can go. *)
Lemma callback_function_cases output w :
  (exists msg, open_error w = Some msg /\
               callback_function output w = (w, Raise (OSError msg))) \/
  (exists msg, open_error w = None /\ write_error w = Some msg /\
               callback_function output w =
                 (World (<[TASK_OUTPUT_FILE := store w]> (files w))
                        (open_handles w) (stdout w) None (Some msg),
                  Raise (OSError msg))) \/
  (open_error w = None /\ write_error w = None /\
   callback_function output w =
     (World (<[TASK_OUTPUT_FILE := store w +:+ result output +:+ LF +:+ LF]> (files w))
            (open_handles w) (stdout w ++ [SAVED]) None None,
      Ret tt)).
Proof.
  destruct (open_error w) as [msg|] eqn:Hopen.
  - left. exists msg. split; [reflexivity |].
    unfold callback_function, bindM, with_open_append, open_append.
    now rewrite Hopen.
  - destruct (write_error w) as [msg|] eqn:Hwrite.
    + right; left. exists msg. repeat split.
      now apply callback_function_refused.
    + right; right. repeat split. now apply callback_function_run.
Qed.

(** X12: when the log cannot be opened, the hook raises the [OSError] and
    leaves everything as it was: nothing is written, nothing is printed, no
    handle is open. *)
Theorem callback_function_cannot_open output w msg :
  open_error w = Some msg ->
  callback_function output w = (w, Raise (OSError msg)).
Proof.
  intros Hopen.
  unfold callback_function, bindM, with_open_append, open_append.
  now rewrite Hopen.
Qed.

(** X13: however a call of the hook ends, the handles that are open after it
    are those that were open before it. *)
Theorem callback_function_leaves_no_handle output w :
  open_handles (fst (callback_function output w)) = open_handles w.
Proof.
  destruct (callback_function_cases output w)
    as [(msg & _ & ->) | [(msg & _ & _ & ->) | (_ & _ & ->)]]; reflexivity.
Qed.

(** X14: however a call of the hook ends, every file but the log is as it
    was, and the log starts with what it held before. *)
Theorem callback_function_only_appends output w :
  (forall path, path <> TASK_OUTPUT_FILE ->
     files (fst (callback_function output w)) !! path = files w !! path) /\
  (exists added, store (fst (callback_function output w)) = store w +:+ added).
Proof.
  destruct (callback_function_cases output w)
    as [(msg & _ & ->) | [(msg & _ & _ & ->) | (_ & _ & ->)]]; simpl.
  - split; [reflexivity |]. exists EmptyString. now rewrite str_app_empty_r.
  - split.
    + intros path Hpath. now rewrite lookup_insert_ne.
    + exists EmptyString. unfold store at 1. simpl.
      now rewrite lookup_insert_eq, str_app_empty_r.
  - split.
    + intros path Hpath. now rewrite lookup_insert_ne.
    + exists (result output +:+ LF +:+ LF). unfold store at 1. simpl.
      now rewrite lookup_insert_eq.
Qed.

(** X15: the line "Result saved to task_output.txt" is printed when the hook
    returns, and nothing is printed when it raises. *)
Theorem callback_function_prints_after_saving output w :
  stdout (fst (callback_function output w)) =
    match snd (callback_function output w) with
    | Ret _ => stdout w ++ ["Result saved to task_output.txt"]
    | Raise _ => stdout w
    end.
Proof.
  destruct (callback_function_cases output w)
    as [(msg & _ & ->) | [(msg & _ & _ & ->) | (_ & _ & ->)]]; reflexivity.
Qed.

(** X16: when the log can be opened and written, the hook called for a list
    of results returns, appends their blocks to the log in the order of the
    calls, and prints one line per result. *)
Theorem callbacks_append_in_order outputs w :
  open_error w = None -> write_error w = None ->
  snd (callbacks outputs w) = Ret tt /\
  store (fst (callbacks outputs w)) = store w +:+ blocks outputs /\
  stdout (fst (callbacks outputs w)) =
    stdout w ++ repeat "Result saved to task_output.txt" (length outputs) /\
  open_handles (fst (callbacks outputs w)) = open_handles w.
Proof.
  revert w; induction outputs as [|output rest IH]; intros w Hopen Hwrite.
  - simpl. rewrite str_app_empty_r, app_nil_r. repeat split.
  - simpl callbacks. unfold bindM.
    rewrite callback_function_run by assumption.
    set (w1 := World _ _ _ _ _).
    destruct (IH w1 eq_refl eq_refl) as (Hret & Hstore & Hout & Hhandles).
    repeat split.
    + exact Hret.
    + rewrite Hstore. unfold store at 1. subst w1. simpl.
      rewrite lookup_insert_eq. simpl.
      now rewrite !str_app_assoc.
    + rewrite Hout. subst w1. simpl. now rewrite <- app_assoc.
    + rewrite Hhandles. reflexivity.
Qed.

(** ** The edge scenarios, run *)

Module EdgeFacts.
Import Scenario EdgeScenario.

Example mixed_records_raise :
  search (answers (Ret (ok (VDict mixed_jobs)))) = Raise (KeyError "display_name").
Proof. vm_compute. reflexivity. Qed.

Example odd_fields_line :
  job_details repr (VDict odd_fields) =
  Ret "Title: 42, Company: None, Location: True, Description: <object>...".
Proof. vm_compute. reflexivity. Qed.

Example two_results_on_a_used_disk :
  store (fst (callbacks [report; advice] used)) =
  "Earlier run." +:+ LF +:+ LF +:+
  "Ten openings found." +:+ LF +:+ LF +:+
  "Practise case interviews." +:+ LF +:+ LF.
Proof. vm_compute. reflexivity. Qed.

Lemma search_jobs_blank_credentials_witness :
  (empty_key !! "ADZUNA_APP_ID" = Some EmptyString \/
   empty_key !! "ADZUNA_API_KEY" = Some EmptyString) /\
  _search_jobs repr empty_key (answers (Ret (ok (VDict two_jobs))))
               role location num_results =
    Ret "Missing ADZUNA_APP_ID or ADZUNA_API_KEY environment variables.".
Proof.
  assert (H : empty_key !! "ADZUNA_APP_ID" = Some EmptyString \/
              empty_key !! "ADZUNA_API_KEY" = Some EmptyString)
    by (right; reflexivity).
  split; [exact H |].
  exact (search_jobs_blank_credentials repr empty_key _ role location num_results H).
Defined.

Lemma search_jobs_never_empty_witness :
  search (answers (Ret (ok (VDict no_jobs)))) = Ret "No jobs found." /\
  "No jobs found." <> EmptyString.
Proof.
  assert (H : search (answers (Ret (ok (VDict no_jobs)))) = Ret "No jobs found.")
    by (vm_compute; reflexivity).
  split; [exact H |].
  exact (search_jobs_never_empty repr credentials _ role location num_results _ H).
Defined.

Lemma search_jobs_returns_iff_well_formed_witness :
  successful_response credentials (answers (Ret (ok (VDict mixed_jobs))))
                      role location num_results (VDict mixed_jobs) /\
  mixed_jobs !! "results" =
    Some (VList ([job_of analyst] ++ anonymous_job :: [job_of consultant])) /\
  (returns (search (answers (Ret (ok (VDict mixed_jobs))))) <->
   forallb well_formed_record
     ([job_of analyst] ++ anonymous_job :: [job_of consultant]) = true).
Proof.
  split; [apply ScenarioFacts.scenario_success |]. split; [reflexivity |].
  apply (search_jobs_returns_iff_well_formed repr credentials _ role location
           num_results mixed_jobs _ (ScenarioFacts.scenario_success _)).
  reflexivity.
Defined.

Lemma search_jobs_first_bad_record_witness :
  successful_response credentials (answers (Ret (ok (VDict mixed_jobs))))
                      role location num_results (VDict mixed_jobs) /\
  mixed_jobs !! "results" =
    Some (VList ([job_of analyst] ++ anonymous_job :: [job_of consultant])) /\
  forallb well_formed_record [job_of analyst] = true /\
  job_details repr anonymous_job = Raise (KeyError "display_name") /\
  search (answers (Ret (ok (VDict mixed_jobs)))) = Raise (KeyError "display_name").
Proof.
  assert (Hres : mixed_jobs !! "results" =
            Some (VList ([job_of analyst] ++ anonymous_job :: [job_of consultant])))
    by reflexivity.
  assert (Hgood : forallb well_formed_record [job_of analyst] = true)
    by (vm_compute; reflexivity).
  assert (Hbad : job_details repr anonymous_job = Raise (KeyError "display_name"))
    by (vm_compute; reflexivity).
  split; [apply ScenarioFacts.scenario_success |]. split; [exact Hres |].
  split; [exact Hgood |]. split; [exact Hbad |].
  exact (search_jobs_first_bad_record repr credentials _ role location num_results
           mixed_jobs _ _ _ _ (ScenarioFacts.scenario_success _) Hres Hgood Hbad).
Defined.

Lemma search_jobs_body_not_object_witness :
  successful_response credentials (answers (Ret (ok (VList []))))
                      role location num_results (VList []) /\
  is_dict (VList []) = false /\
  search (answers (Ret (ok (VList [])))) = Raise AttributeError.
Proof.
  split; [apply ScenarioFacts.scenario_success |]. split; [reflexivity |].
  exact (search_jobs_body_not_object repr credentials _ role location num_results
           (VList []) (ScenarioFacts.scenario_success _) eq_refl).
Defined.

Lemma search_jobs_results_not_iterable_witness :
  successful_response credentials (answers (Ret (ok (VDict null_results))))
                      role location num_results (VDict null_results) /\
  null_results !! "results" = Some VNone /\
  not_iterable VNone = true /\
  search (answers (Ret (ok (VDict null_results)))) = Raise TypeError.
Proof.
  assert (Hres : null_results !! "results" = Some VNone) by reflexivity.
  split; [apply ScenarioFacts.scenario_success |]. split; [exact Hres |].
  split; [reflexivity |].
  exact (search_jobs_results_not_iterable repr credentials _ role location
           num_results null_results VNone (ScenarioFacts.scenario_success _)
           Hres eq_refl).
Defined.

Lemma search_jobs_json_raises_witness :
  credentials_present credentials /\
  is_error_status (undecodable decode_error) = false /\
  json (undecodable decode_error) = Raise decode_error /\
  search (answers (Ret (undecodable decode_error))) =
    Ret "Request error: Expecting value: line 1 column 1 (char 0)".
Proof.
  split; [exact ScenarioFacts.scenario_credentials |].
  split; [reflexivity |]. split; [reflexivity |].
  exact (search_jobs_json_raises repr credentials
           (answers (Ret (undecodable decode_error))) role location num_results
           (undecodable decode_error) decode_error
           ScenarioFacts.scenario_credentials eq_refl eq_refl eq_refl).
Defined.

Lemma search_jobs_get_raises_other_witness :
  credentials_present credentials /\
  (forall msg, OtherError "KeyboardInterrupt" <> RequestException msg) /\
  search (answers (Raise (OtherError "KeyboardInterrupt"))) =
    Raise (OtherError "KeyboardInterrupt").
Proof.
  assert (H : forall msg, OtherError "KeyboardInterrupt" <> RequestException msg)
    by (intros msg E; discriminate E).
  split; [exact ScenarioFacts.scenario_credentials |]. split; [exact H |].
  exact (search_jobs_get_raises_other repr credentials
           (answers (Raise (OtherError "KeyboardInterrupt"))) role location
           num_results _ ScenarioFacts.scenario_credentials eq_refl H).
Defined.



Lemma callback_function_cannot_open_witness :
  open_error read_only = Some "[Errno 13] Permission denied: 'task_output.txt'" /\
  callback_function report read_only =
    (read_only, Raise (OSError "[Errno 13] Permission denied: 'task_output.txt'")).
Proof.
  split; [reflexivity |].
  exact (callback_function_cannot_open report read_only _ eq_refl).
Defined.

Lemma callbacks_append_in_order_witness :
  open_error used = None /\ write_error used = None /\
  snd (callbacks [report; advice] used) = Ret tt /\
  store (fst (callbacks [report; advice] used)) =
    store used +:+ blocks [report; advice] /\
  stdout (fst (callbacks [report; advice] used)) =
    stdout used ++ repeat "Result saved to task_output.txt" 2 /\
  open_handles (fst (callbacks [report; advice] used)) = open_handles used.
Proof.
  split; [reflexivity |]. split; [reflexivity |].
  exact (callbacks_append_in_order [report; advice] used eq_refl eq_refl).
Defined.

End EdgeFacts.

(** ** The search tool and the network *)

Section OneRequest.

Variable py_repr : value -> string.
Variable environ : gmap string string.


End OneRequest.

Module NetworkFacts.
Import Scenario.


End NetworkFacts.
